(** * CachetAPI: a shallow embedding of src/CachetAPI.js

    The client is a class of asynchronous methods, each of which builds a
    path, issues one call on an axios instance, unwraps the answer and
    rewrites a rejection through [createError].  The embedding keeps that
    shape:

    - JavaScript values are an inductive type [value]; the conversions the
      source relies on (truthiness of a condition, [+] against a string,
      property access, [toString], [JSON.stringify]) are functions on it,
      partial where the language throws;
    - a method body is a computation in [JS], a state-and-exception monad over
      the [World]: the requests that left the process and the lines written
      by [console.error];
    - the network is a variable of the section: [adapter] says how the request
      sent after a given history settles. *)

From Stdlib Require Import String Ascii List ZArith NArith Lia Bool DecimalString.
Import ListNotations.
Open Scope list_scope.
Open Scope string_scope.

Set Warnings "-register-all".

(** ** JavaScript values *)

(** Numbers are the safe integers and NaN, which is all the client meets in
    an identifier, a status code or a flag.  A safe integer is exact as a
    JavaScript number and prints in plain decimal digits. *)
Definition max_safe_integer : Z := 9007199254740991.

Definition is_safe (z : Z) : bool := (Z.abs z <=? max_safe_integer)%Z.

Record safe_integer : Type := mkSafe {
  int_value : Z;
  int_is_safe : is_safe int_value = true
}.

Notation "'safe' z" := (mkSafe z eq_refl) (at level 10, z at level 9).

(** An object is the list of its own enumerable properties, as successive
    assignments build it: a later binding of a key overrides an earlier one.
    Objects, arrays and errors have their built-in prototypes.  No value is
    a function, so that an own property is never callable.  An [Error]
    instance carries the [name] and [message] it answers with, and its other
    properties as an object does. *)
Inductive value : Type :=
| VUndefined
| VNull
| VBool (b : bool)
| VNum (n : safe_integer)
| VNaN
| VStr (s : string)
| VArr (elems : list value)
| VObj (props : list (string * value))
| VErr (name message : string) (props : list (string * value)).

(** ToBoolean, as taken by [if (...)], [!] and [&&]. *)
Definition truthy (v : value) : bool :=
  match v with
  | VUndefined | VNull | VNaN => false
  | VBool b => b
  | VNum n => negb (int_value n =? 0)%Z
  | VStr s => negb (s =? "")
  | VArr _ | VObj _ | VErr _ _ _ => true
  end.

Definition nullish (v : value) : bool :=
  match v with
  | VUndefined | VNull => true
  | _ => false
  end.

Definition has_own {A : Type} (k : string) (props : list (string * A)) : bool :=
  existsb (fun kv => fst kv =? k) props.

Definition number_to_string (n : safe_integer) : string :=
  NilZero.string_of_int (Z.to_int (int_value n)).

Definition join (sep : string) (parts : list string) : string :=
  String.concat sep parts.

(** All the texts, or nothing when one is missing. *)
Definition all_texts (parts : list (option string)) : option (list string) :=
  fold_right (fun part acc =>
                match part, acc with
                | Some s, Some l => Some (s :: l)
                | _, _ => None
                end) (Some []) parts.

(** ToString of ToPrimitive, as applied by [+] against a string: [None]
    where the conversion throws a TypeError.  An object converts through the
    [toString] of its prototype, unless a property of its own hides it: such
    a property is not callable, [valueOf] gives the object back, and no
    primitive is found.  An array joins the texts of its elements. *)
Fixpoint to_string (v : value) : option string :=
  match v with
  | VUndefined => Some "undefined"
  | VNull => Some "null"
  | VBool true => Some "true"
  | VBool false => Some "false"
  | VNum n => Some (number_to_string n)
  | VNaN => Some "NaN"
  | VStr s => Some s
  | VArr elems =>
      option_map (join ",")
        (all_texts (map (fun x => if nullish x then Some "" else to_string x) elems))
  | VObj props =>
      if has_own "toString" props then None else Some "[object Object]"
  | VErr name message props =>
      if has_own "toString" props then None
      else if name =? "" then Some message
      else if message =? "" then Some name
      else Some (name ++ ": " ++ message)
  end.

(** ** JSON.stringify *)

Definition dquote : string := String (ascii_of_nat 34) "".
Definition backslash : string := String (ascii_of_nat 92) "".

Definition hex_digit (n : nat) : string :=
  String (nth n (list_ascii_of_string "0123456789abcdef") "0"%char) "".

Definition escape_char (c : ascii) : string :=
  let n := nat_of_ascii c in
  if Nat.eqb n 34 then backslash ++ dquote
  else if Nat.eqb n 92 then backslash ++ backslash
  else if Nat.eqb n 8 then backslash ++ "b"
  else if Nat.eqb n 9 then backslash ++ "t"
  else if Nat.eqb n 10 then backslash ++ "n"
  else if Nat.eqb n 12 then backslash ++ "f"
  else if Nat.eqb n 13 then backslash ++ "r"
  else if Nat.ltb n 32
       then backslash ++ "u00"
            ++ hex_digit (Nat.div n 16) ++ hex_digit (Nat.modulo n 16)
  else String c "".

Fixpoint escape (s : string) : string :=
  match s with
  | EmptyString => ""
  | String c rest => escape_char c ++ escape rest
  end.

Definition quote (s : string) : string := dquote ++ escape s ++ dquote.

(** *** The order of the keys

    The own keys of an object come out with the array indices first, in
    ascending order, and the other keys after them, in the order of their
    first assignment. *)

Fixpoint digits (s : string) (acc : N) : option N :=
  match s with
  | EmptyString => Some acc
  | String c rest =>
      let n := N_of_ascii c in
      if ((48 <=? n) && (n <=? 57))%N
      then digits rest (acc * 10 + (n - 48))%N
      else None
  end.

(** A canonical numeric string below 2^32 - 1. *)
Definition array_index (k : string) : option N :=
  match k with
  | EmptyString => None
  | String c rest =>
      if (c =? "0")%char
      then (if rest =? "" then Some 0%N else None)
      else match digits k 0 with
           | Some n => if (n <? 4294967295)%N then Some n else None
           | None => None
           end
  end.

(** Assigns [k] in [props]: in place when the key is there, at the end when
    it is not. *)
Fixpoint assign {A : Type} (k : string) (a : A) (props : list (string * A))
  : list (string * A) :=
  match props with
  | [] => [(k, a)]
  | (k', a') :: rest =>
      if k' =? k then (k, a) :: rest else (k', a') :: assign k a rest
  end.

Definition assigned {A : Type} (props : list (string * A)) : list (string * A) :=
  fold_left (fun acc kv => assign (fst kv) (snd kv) acc) props [].

Fixpoint insert_index {A : Type} (n : N) (kv : string * A)
    (sorted : list (N * (string * A))) : list (N * (string * A)) :=
  match sorted with
  | [] => [(n, kv)]
  | (m, kv') :: rest =>
      if (n <? m)%N then (n, kv) :: sorted
      else (m, kv') :: insert_index n kv rest
  end.

Definition indices_first {A : Type} (props : list (string * A)) : list (string * A) :=
  let indexed :=
    fold_right (fun kv acc =>
                  match array_index (fst kv) with
                  | Some n => insert_index n kv acc
                  | None => acc
                  end) [] props in
  let named :=
    filter (fun kv => match array_index (fst kv) with
                      | Some _ => false
                      | None => true
                      end) props in
  (map snd indexed ++ named)%list.

Definition own_properties {A : Type} (props : list (string * A)) : list (string * A) :=
  indices_first (assigned props).

(** The text of a value nested in an array or an object: [None] where
    [JSON.stringify] leaves the value out. *)
Fixpoint json (v : value) : option string :=
  let member (kv : string * option string) : list string :=
    match snd kv with
    | Some t => [quote (fst kv) ++ ":" ++ t]
    | None => []
    end in
  match v with
  | VUndefined => None
  | VNull | VNaN => Some "null"
  | VBool true => Some "true"
  | VBool false => Some "false"
  | VNum n => Some (number_to_string n)
  | VStr s => Some (quote s)
  | VArr elems =>
      Some ("[" ++ join "," (map (fun x => match json x with
                                           | Some t => t
                                           | None => "null"
                                           end) elems) ++ "]")
  | VObj props | VErr _ _ props =>
      Some ("{"
            ++ join "," (flat_map member
                           (own_properties
                              (map (fun kv => (fst kv, json (snd kv))) props)))
            ++ "}")
  end.

(** [JSON.stringify(v)]: a string, or [undefined] for [undefined]. *)
Definition JSON_stringify (v : value) : value :=
  match json v with
  | Some t => VStr t
  | None => VUndefined
  end.


(** ** Property access *)

(** The property names the client reads.  None of them is defined on a
    primitive, on an array or on a built-in prototype, so that reading one
    from anything but an object gives [undefined]; reading from [undefined]
    or [null] throws. *)
Inductive field : Type :=
| f_data | f_response | f_status | f_statusText | f_url | f_apiToken.

Definition field_name (f : field) : string :=
  match f with
  | f_data => "data"
  | f_response => "response"
  | f_status => "status"
  | f_statusText => "statusText"
  | f_url => "url"
  | f_apiToken => "apiToken"
  end.

(** The property [k]: its last binding. *)
Fixpoint lookup (k : string) (props : list (string * value)) : value :=
  match props with
  | [] => VUndefined
  | (k', v) :: rest =>
      if (k' =? k) && negb (has_own k rest) then v else lookup k rest
  end.

Definition new_Error (message : string) : value := VErr "Error" message [].

Definition new_TypeError (message : string) : value :=
  VErr "TypeError" message [].

(** What reading [name] from [undefined] or [null] throws. *)
Definition cannot_read (v : value) (name : string) : value :=
  new_TypeError ("Cannot read properties of "
                 ++ match v with
                    | VNull => "null"
                    | _ => "undefined"
                    end
                 ++ " (reading '" ++ name ++ "')").

Definition cannot_convert : value :=
  new_TypeError "Cannot convert object to primitive value".

Definition not_a_function (callee : string) : value :=
  new_TypeError (callee ++ " is not a function").

(** ** The world and the monad of method bodies *)

Inductive Method : Type := GET | POST | PUT | DELETE.

(** What axios hands to the network: the configuration of the instance
    merged with the call. *)
Record Request : Type := mkRequest {
  req_method : Method;
  req_baseURL : value;
  req_headers : list (string * value);
  req_url : string;
  req_data : value
}.

(** How the promise of an axios call settles. *)
Inductive Settled : Type :=
| Fulfilled (response : value)
| Rejected (reason : value).

Record World : Type := mkWorld {
  sent : list Request;
  console : list value
}.

Inductive completion (A : Type) : Type :=
| Normal (a : A)
| Throw (e : value).

Arguments Normal {A} a.
Arguments Throw {A} e.

Definition JS (A : Type) : Type := World -> completion A * World.

Definition ret {A} (a : A) : JS A := fun w => (Normal a, w).

Definition throw {A} (e : value) : JS A := fun w => (Throw e, w).

Definition bind {A B} (c : JS A) (k : A -> JS B) : JS B :=
  fun w =>
    match c w with
    | (Normal a, w') => k a w'
    | (Throw e, w') => (Throw e, w')
    end.

Definition try_catch {A} (c : JS A) (handler : value -> JS A) : JS A :=
  fun w =>
    match c w with
    | (Normal a, w') => (Normal a, w')
    | (Throw e, w') => handler e w'
    end.

Notation "x <- c ;; k" := (bind c (fun x => k))
  (at level 61, c at next level, right associativity).
Notation "c ;;; k" := (bind c (fun _ => k))
  (at level 61, right associativity).
Notation "'TRY' c 'CATCH' e => h" := (try_catch c (fun e => h))
  (at level 60, c at level 59, e name, h at level 61).

(** A step that touches nothing in the world. *)
Definition pure {A} (c : completion A) : JS A := fun w => (c, w).

(** [v.f], as a value or the TypeError it throws. *)
Definition read (v : value) (f : field) : completion value :=
  match v with
  | VUndefined | VNull => Throw (cannot_read v (field_name f))
  | VObj props | VErr _ _ props => Normal (lookup (field_name f) props)
  | _ => Normal VUndefined
  end.

Definition get (v : value) (f : field) : JS value := pure (read v f).

(** The text [+] takes from [v], or the TypeError of the conversion. *)
Definition convert (v : value) : completion string :=
  match to_string v with
  | Some s => Normal s
  | None => Throw cannot_convert
  end.

(** A string under construction: [str s +s a +s b] is [s + a + b], read
    from left to right. *)
Definition str (s : string) : JS string := ret s.

Definition plus (c : JS string) (v : value) : JS string :=
  s <- c ;; t <- pure (convert v) ;; ret (s ++ t).

Notation "c +s v" := (plus c v) (at level 50, left associativity).

(** [v + s] with a string on the right. *)
Definition plus_str (v : value) (s : string) : JS string :=
  t <- pure (convert v) ;; ret (t ++ s).

(** [v.toString()], as a text or what the call throws: there is nothing to
    read from [undefined] and [null], an own [toString] is not a function,
    and the built-in methods convert as [+] does. *)
Definition string_form (v : value) : completion string :=
  match v with
  | VUndefined | VNull => Throw (cannot_read v "toString")
  | VObj props | VErr _ _ props =>
      if has_own "toString" props then Throw (not_a_function "error.toString")
      else convert v
  | _ => convert v
  end.

Definition toString (v : value) : JS string := pure (string_form v).

(** [console.error(v)] *)
Definition console_error (v : value) : JS unit :=
  fun w => (Normal tt, mkWorld (sent w) (console w ++ [v])%list).

(** ** The axios instance *)

Record AxiosInstance : Type := mkAxios {
  baseURL : value;
  headers : list (string * value)
}.

(** [axios.create({ baseURL: b, headers: h })] builds the instance and sends
    nothing. *)
Definition axios_create (b : value) (h : list (string * value))
  : AxiosInstance := mkAxios b h.

(** ** Calling a method

    A call names a method and passes a list of arguments: parameters are
    bound by position, a missing argument is [undefined] and arguments beyond
    the parameters of the method are dropped. *)
Inductive operation : Type :=
| Ping | GetVersion | GetComponents | GetComponent | AddComponent
| UpdateComponent | DeleteComponent | GetComponentGroups | GetComponentGroup
| AddComponentGroup | UpdateComponentGroup | DeleteComponentGroup
| GetIncidents | GetIncident | AddIncident | UpdateIncident | DeleteIncident
| GetIncidentUpdates | GetIncidentUpdate | AddIncidentUpdate
| UpdateIncidentUpdate | DeleteIncidentUpdate | GetMetrics | GetMetric
| AddMetric | DeleteMetric | GetMetricPoints | AddMetricPoint
| DeleteMetricPoint | GetSubscribers | AddSubscriber | DeleteSubscriber.

Definition arg (n : nat) (args : list value) : value := nth n args VUndefined.

(** The ways a method returns. *)
Inductive returns : Type :=
| Unwrap                      (* return response.data.data *)
| RawIf (with_meta : value)   (* if (with_meta) return response.data
                                 else return response.data.data *)
| ConstTrue.                  (* return true *)

Section Client.

(** The network: how the request [r], sent after the requests [history],
    settles. *)
Variable adapter : list Request -> Request -> Settled.

Definition axios_request (api : AxiosInstance) (m : Method) (url : string)
    (data : value) : JS value :=
  fun w =>
    let r := mkRequest m (baseURL api) (headers api) url data in
    let w' := mkWorld (sent w ++ [r])%list (console w) in
    match adapter (sent w) r with
    | Fulfilled response => (Normal response, w')
    | Rejected reason => (Throw reason, w')
    end.

Definition axios_get (api : AxiosInstance) (url : string) : JS value :=
  axios_request api GET url VUndefined.

Definition axios_post (api : AxiosInstance) (url : string) (data : value) : JS value :=
  axios_request api POST url data.

Definition axios_put (api : AxiosInstance) (url : string) (data : value) : JS value :=
  axios_request api PUT url data.

Definition axios_delete (api : AxiosInstance) (url : string) : JS value :=
  axios_request api DELETE url VUndefined.

(** ** class CachetAPI *)

Record CachetAPI : Type := mkCachetAPI {
  options : value;
  api : AxiosInstance
}.

Definition constructor (options : value) : JS CachetAPI :=
  missing <- (if negb (truthy options) then ret true
              else (url <- get options f_url ;; ret (negb (truthy url)))) ;;
  if (missing : bool)
  then throw (new_Error "Error! options.url a is required option!")
  else
    url <- get options f_url ;;
    apiToken <- get options f_apiToken ;;
    ret (mkCachetAPI options (axios_create url [("X-Cachet-Token", apiToken)])).

(** *** Utilities *)

Definition createError (url type : string) (error : value) : JS value :=
  let extraErrorText := "" in
  has_response <- (if truthy error
                   then (response <- get error f_response ;;
                         ret (truthy response))
                   else ret false) ;;
  extraErrorText <-
    (if (has_response : bool) then
       response <- get error f_response ;;
       status <- get response f_status ;;
       extraErrorText <-
         (if truthy status
          then (t <- plus_str status " " ;; ret (extraErrorText ++ t))
          else ret extraErrorText) ;;
       statusText <- get response f_statusText ;;
       extraErrorText <-
         (if truthy statusText
          then (t <- plus_str statusText " | " ;; ret (extraErrorText ++ t))
          else ret extraErrorText) ;;
       data <- get response f_data ;;
       extraErrorText <-
         (if truthy data
          then str extraErrorText +s JSON_stringify data
          else ret extraErrorText) ;;
       ret extraErrorText
     else toString error) ;;
  console_error error ;;;
  ret (new_Error ("Unable to " ++ type ++ " " ++ url ++ ": " ++ extraErrorText)).

(** *** General *)

Definition ping (this : CachetAPI) : JS value :=
  let url := "/v1/ping" in
  response <- (TRY axios_get (api this) url
               CATCH e => (err <- createError url "GET" e ;; throw err)) ;;
  data <- get response f_data ;;
  get data f_data.

Definition getVersion (this : CachetAPI) (with_meta : value) : JS value :=
  let url := "/v1/version" in
  response <- (TRY axios_get (api this) url
               CATCH e => (err <- createError url "GET" e ;; throw err)) ;;
  if truthy with_meta
  then get response f_data
  else (data <- get response f_data ;; get data f_data).

(** *** Components *)

Definition getComponents (this : CachetAPI) (with_meta : value) : JS value :=
  let url := "/v1/components" in
  response <- (TRY axios_get (api this) url
               CATCH e => (err <- createError url "GET" e ;; throw err)) ;;
  if truthy with_meta
  then get response f_data
  else (data <- get response f_data ;; get data f_data).

Definition getComponent (this : CachetAPI) (component_id : value) : JS value :=
  url <- str "/v1/components/" +s component_id ;;
  response <- (TRY axios_get (api this) url
               CATCH e => (err <- createError url "GET" e ;; throw err)) ;;
  data <- get response f_data ;;
  get data f_data.

Definition addComponent (this : CachetAPI) (component : value) : JS value :=
  let url := "/v1/components" in
  response <- (TRY axios_post (api this) url component
               CATCH e => (err <- createError url "POST" e ;; throw err)) ;;
  data <- get response f_data ;;
  get data f_data.

Definition updateComponent (this : CachetAPI)
    (component_id : value) (component : value) : JS value :=
  url <- str "/v1/components/" +s component_id ;;
  response <- (TRY axios_put (api this) url component
               CATCH e => (err <- createError url "PUT" e ;; throw err)) ;;
  data <- get response f_data ;;
  get data f_data.

Definition deleteComponent (this : CachetAPI)
    (component_id : value) : JS value :=
  url <- str "/v1/components/" +s component_id ;;
  response <- (TRY axios_delete (api this) url
               CATCH e => (err <- createError url "DELETE" e ;; throw err)) ;;
  ret (VBool true).

(** *** Component groups *)

Definition getComponentGroups (this : CachetAPI)
    (with_meta : value) : JS value :=
  let url := "/v1/components/groups" in
  response <- (TRY axios_get (api this) url
               CATCH e => (err <- createError url "GET" e ;; throw err)) ;;
  if truthy with_meta
  then get response f_data
  else (data <- get response f_data ;; get data f_data).

Definition getComponentGroup (this : CachetAPI) (group_id : value) : JS value :=
  url <- str "/v1/components/groups/" +s group_id ;;
  response <- (TRY axios_get (api this) url
               CATCH e => (err <- createError url "GET" e ;; throw err)) ;;
  data <- get response f_data ;;
  get data f_data.

Definition addComponentGroup (this : CachetAPI) (group : value) : JS value :=
  let url := "/v1/components/groups" in
  response <- (TRY axios_post (api this) url group
               CATCH e => (err <- createError url "POST" e ;; throw err)) ;;
  data <- get response f_data ;;
  get data f_data.

Definition updateComponentGroup (this : CachetAPI)
    (group_id : value) (group : value) : JS value :=
  url <- str "/v1/components/groups/" +s group_id ;;
  response <- (TRY axios_put (api this) url group
               CATCH e => (err <- createError url "PUT" e ;; throw err)) ;;
  data <- get response f_data ;;
  get data f_data.

Definition deleteComponentGroup (this : CachetAPI)
    (group_id : value) : JS value :=
  url <- str "/v1/components/groups/" +s group_id ;;
  response <- (TRY axios_delete (api this) url
               CATCH e => (err <- createError url "DELETE" e ;; throw err)) ;;
  ret (VBool true).

(** *** Incidents *)

Definition getIncidents (this : CachetAPI) (with_meta : value) : JS value :=
  let url := "/v1/incidents" in
  response <- (TRY axios_get (api this) url
               CATCH e => (err <- createError url "GET" e ;; throw err)) ;;
  if truthy with_meta
  then get response f_data
  else (data <- get response f_data ;; get data f_data).

Definition getIncident (this : CachetAPI) (incident_id : value) : JS value :=
  url <- str "/v1/incidents/" +s incident_id ;;
  response <- (TRY axios_get (api this) url
               CATCH e => (err <- createError url "GET" e ;; throw err)) ;;
  data <- get response f_data ;;
  get data f_data.

Definition addIncident (this : CachetAPI) (incident : value) : JS value :=
  let url := "/v1/incidents" in
  response <- (TRY axios_post (api this) url incident
               CATCH e => (err <- createError url "POST" e ;; throw err)) ;;
  data <- get response f_data ;;
  get data f_data.

Definition updateIncident (this : CachetAPI)
    (incident_id : value) (incident : value) : JS value :=
  url <- str "/v1/incidents/" +s incident_id ;;
  response <- (TRY axios_put (api this) url incident
               CATCH e => (err <- createError url "PUT" e ;; throw err)) ;;
  data <- get response f_data ;;
  get data f_data.

Definition deleteIncident (this : CachetAPI) (incident_id : value) : JS value :=
  url <- str "/v1/incidents/" +s incident_id ;;
  response <- (TRY axios_delete (api this) url
               CATCH e => (err <- createError url "DELETE" e ;; throw err)) ;;
  ret (VBool true).

(** *** Incident updates *)

Definition getIncidentUpdates (this : CachetAPI)
    (incident_id : value) (with_meta : value) : JS value :=
  url <- str "/v1/incidents/" +s incident_id +s VStr "/updates" ;;
  response <- (TRY axios_get (api this) url
               CATCH e => (err <- createError url "GET" e ;; throw err)) ;;
  if truthy with_meta
  then get response f_data
  else (data <- get response f_data ;; get data f_data).

Definition getIncidentUpdate (this : CachetAPI)
    (incident_id : value) (update_id : value) : JS value :=
  url <- str "/v1/incidents/" +s incident_id +s VStr "/updates/" +s update_id ;;
  response <- (TRY axios_get (api this) url
               CATCH e => (err <- createError url "GET" e ;; throw err)) ;;
  data <- get response f_data ;;
  get data f_data.

Definition addIncidentUpdate (this : CachetAPI)
    (incident_id : value) (update : value) : JS value :=
  url <- str "/v1/incidents/" +s incident_id +s VStr "/updates" ;;
  response <- (TRY axios_post (api this) url update
               CATCH e => (err <- createError url "POST" e ;; throw err)) ;;
  data <- get response f_data ;;
  get data f_data.

Definition updateIncidentUpdate (this : CachetAPI)
    (incident_id : value) (update_id : value) (update : value) : JS value :=
  url <- str "/v1/incidents/" +s incident_id +s VStr "/updates/" +s update_id ;;
  response <- (TRY axios_put (api this) url update
               CATCH e => (err <- createError url "PUT" e ;; throw err)) ;;
  data <- get response f_data ;;
  get data f_data.

Definition deleteIncidentUpdate (this : CachetAPI)
    (incident_id : value) (update_id : value) : JS value :=
  url <- str "/v1/incidents/" +s incident_id +s VStr "/updates/" +s update_id ;;
  response <- (TRY axios_delete (api this) url
               CATCH e => (err <- createError url "DELETE" e ;; throw err)) ;;
  ret (VBool true).

(** *** Metrics *)

Definition getMetrics (this : CachetAPI) (with_meta : value) : JS value :=
  let url := "/v1/metrics" in
  response <- (TRY axios_get (api this) url
               CATCH e => (err <- createError url "GET" e ;; throw err)) ;;
  if truthy with_meta
  then get response f_data
  else (data <- get response f_data ;; get data f_data).

Definition getMetric (this : CachetAPI) (metric_id : value) : JS value :=
  url <- str "/v1/metrics/" +s metric_id ;;
  response <- (TRY axios_get (api this) url
               CATCH e => (err <- createError url "GET" e ;; throw err)) ;;
  data <- get response f_data ;;
  get data f_data.

Definition addMetric (this : CachetAPI) (metric : value) : JS value :=
  let url := "/v1/metrics" in
  response <- (TRY axios_post (api this) url metric
               CATCH e => (err <- createError url "POST" e ;; throw err)) ;;
  data <- get response f_data ;;
  get data f_data.

Definition deleteMetric (this : CachetAPI) (metric_id : value) : JS value :=
  url <- str "/v1/metrics/" +s metric_id ;;
  response <- (TRY axios_delete (api this) url
               CATCH e => (err <- createError url "DELETE" e ;; throw err)) ;;
  ret (VBool true).

Definition getMetricPoints (this : CachetAPI) (metric_id : value) : JS value :=
  url <- str "/v1/metrics/" +s metric_id +s VStr "/points" ;;
  response <- (TRY axios_get (api this) url
               CATCH e => (err <- createError url "GET" e ;; throw err)) ;;
  data <- get response f_data ;;
  get data f_data.

Definition addMetricPoint (this : CachetAPI)
    (metric_id : value) (point : value) : JS value :=
  url <- str "/v1/metrics/" +s metric_id +s VStr "/points" ;;
  response <- (TRY axios_post (api this) url point
               CATCH e => (err <- createError url "POST" e ;; throw err)) ;;
  data <- get response f_data ;;
  get data f_data.

Definition deleteMetricPoint (this : CachetAPI)
    (metric_id : value) (point_id : value) : JS value :=
  url <- str "/v1/metrics/" +s metric_id +s VStr "/points/" +s point_id ;;
  response <- (TRY axios_delete (api this) url
               CATCH e => (err <- createError url "DELETE" e ;; throw err)) ;;
  ret (VBool true).

(** *** Subscribers *)

Definition getSubscribers (this : CachetAPI) : JS value :=
  let url := "/v1/subscribers" in
  response <- (TRY axios_get (api this) url
               CATCH e => (err <- createError url "GET" e ;; throw err)) ;;
  data <- get response f_data ;;
  get data f_data.

Definition addSubscriber (this : CachetAPI) (subscriber : value) : JS value :=
  let url := "/v1/subscribers" in
  response <- (TRY axios_post (api this) url subscriber
               CATCH e => (err <- createError url "POST" e ;; throw err)) ;;
  data <- get response f_data ;;
  get data f_data.

Definition deleteSubscriber (this : CachetAPI)
    (subscriber_id : value) : JS value :=
  url <- str "/v1/subscribers/" +s subscriber_id ;;
  response <- (TRY axios_delete (api this) url
               CATCH e => (err <- createError url "DELETE" e ;; throw err)) ;;
  ret (VBool true).

Definition invoke (this : CachetAPI)
    (op : operation) (args : list value) : JS value :=
  match op with
  | Ping => ping this
  | GetVersion => getVersion this (arg 0 args)
  | GetComponents => getComponents this (arg 0 args)
  | GetComponent => getComponent this (arg 0 args)
  | AddComponent => addComponent this (arg 0 args)
  | UpdateComponent => updateComponent this (arg 0 args) (arg 1 args)
  | DeleteComponent => deleteComponent this (arg 0 args)
  | GetComponentGroups => getComponentGroups this (arg 0 args)
  | GetComponentGroup => getComponentGroup this (arg 0 args)
  | AddComponentGroup => addComponentGroup this (arg 0 args)
  | UpdateComponentGroup => updateComponentGroup this (arg 0 args) (arg 1 args)
  | DeleteComponentGroup => deleteComponentGroup this (arg 0 args)
  | GetIncidents => getIncidents this (arg 0 args)
  | GetIncident => getIncident this (arg 0 args)
  | AddIncident => addIncident this (arg 0 args)
  | UpdateIncident => updateIncident this (arg 0 args) (arg 1 args)
  | DeleteIncident => deleteIncident this (arg 0 args)
  | GetIncidentUpdates => getIncidentUpdates this (arg 0 args) (arg 1 args)
  | GetIncidentUpdate => getIncidentUpdate this (arg 0 args) (arg 1 args)
  | AddIncidentUpdate => addIncidentUpdate this (arg 0 args) (arg 1 args)
  | UpdateIncidentUpdate => updateIncidentUpdate this (arg 0 args) (arg 1 args) (arg 2 args)
  | DeleteIncidentUpdate => deleteIncidentUpdate this (arg 0 args) (arg 1 args)
  | GetMetrics => getMetrics this (arg 0 args)
  | GetMetric => getMetric this (arg 0 args)
  | AddMetric => addMetric this (arg 0 args)
  | DeleteMetric => deleteMetric this (arg 0 args)
  | GetMetricPoints => getMetricPoints this (arg 0 args)
  | AddMetricPoint => addMetricPoint this (arg 0 args) (arg 1 args)
  | DeleteMetricPoint => deleteMetricPoint this (arg 0 args) (arg 1 args)
  | GetSubscribers => getSubscribers this
  | AddSubscriber => addSubscriber this (arg 0 args)
  | DeleteSubscriber => deleteSubscriber this (arg 0 args)
  end.

(** *** The skeleton of a method *)

Definition run_return (r : returns) (response : value) : JS value :=
  match r with
  | Unwrap => data <- get response f_data ;; get data f_data
  | RawIf with_meta =>
      if truthy with_meta
      then get response f_data
      else (data <- get response f_data ;; get data f_data)
  | ConstTrue => ret (VBool true)
  end.

Definition call_then (this : CachetAPI) (m : Method) (type url : string)
    (data : value) (r : returns) : JS value :=
  response <- (TRY axios_request (api this) m url data
               CATCH e => (err <- createError url type e ;; throw err)) ;;
  run_return r response.

End Client.

(** ** What a call does, read off the method bodies

    Every method has the same skeleton: build [url], make one axios call
    inside [try], rethrow what [createError] builds in [catch], and return
    from the response.  [call_then] is that skeleton; [op_method], [op_type],
    [op_url], [op_data] and [op_return] are the places where the bodies
    differ, and [invoke_skeleton] checks them against the bodies. *)

Definition op_method (op : operation) : Method :=
  match op with
  | Ping | GetVersion | GetComponents | GetComponent | GetComponentGroups
  | GetComponentGroup | GetIncidents | GetIncident | GetIncidentUpdates
  | GetIncidentUpdate | GetMetrics | GetMetric | GetMetricPoints
  | GetSubscribers => GET
  | AddComponent | AddComponentGroup | AddIncident | AddIncidentUpdate
  | AddMetric | AddMetricPoint | AddSubscriber => POST
  | UpdateComponent | UpdateComponentGroup | UpdateIncident
  | UpdateIncidentUpdate => PUT
  | DeleteComponent | DeleteComponentGroup | DeleteIncident
  | DeleteIncidentUpdate | DeleteMetric | DeleteMetricPoint
  | DeleteSubscriber => DELETE
  end.

(** The literal handed to [createError] in the [catch] clause. *)
Definition op_type (op : operation) : string :=
  match op with
  | Ping | GetVersion | GetComponents | GetComponent | GetComponentGroups
  | GetComponentGroup | GetIncidents | GetIncident | GetIncidentUpdates
  | GetIncidentUpdate | GetMetrics | GetMetric | GetMetricPoints
  | GetSubscribers => "GET"
  | AddComponent | AddComponentGroup | AddIncident | AddIncidentUpdate
  | AddMetric | AddMetricPoint | AddSubscriber => "POST"
  | UpdateComponent | UpdateComponentGroup | UpdateIncident
  | UpdateIncidentUpdate => "PUT"
  | DeleteComponent | DeleteComponentGroup | DeleteIncident
  | DeleteIncidentUpdate | DeleteMetric | DeleteMetricPoint
  | DeleteSubscriber => "DELETE"
  end.

(** [s + v] on texts: nothing when the conversion of [v] throws. *)
Definition splice (s : option string) (v : value) : option string :=
  match s, to_string v with
  | Some a, Some b => Some (a ++ b)
  | _, _ => None
  end.

Notation "s +? v" := (splice s v) (at level 50, left associativity).

(** The path a method builds before its call, when it gets that far. *)
Definition op_url (op : operation) (args : list value) : option string :=
  match op with
  | Ping => Some "/v1/ping"
  | GetVersion => Some "/v1/version"
  | GetComponents | AddComponent => Some "/v1/components"
  | GetComponent | UpdateComponent | DeleteComponent =>
      Some "/v1/components/" +? arg 0 args
  | GetComponentGroups | AddComponentGroup => Some "/v1/components/groups"
  | GetComponentGroup | UpdateComponentGroup | DeleteComponentGroup =>
      Some "/v1/components/groups/" +? arg 0 args
  | GetIncidents | AddIncident => Some "/v1/incidents"
  | GetIncident | UpdateIncident | DeleteIncident =>
      Some "/v1/incidents/" +? arg 0 args
  | GetIncidentUpdates | AddIncidentUpdate =>
      Some "/v1/incidents/" +? arg 0 args +? VStr "/updates"
  | GetIncidentUpdate | UpdateIncidentUpdate | DeleteIncidentUpdate =>
      Some "/v1/incidents/" +? arg 0 args +? VStr "/updates/" +? arg 1 args
  | GetMetrics | AddMetric => Some "/v1/metrics"
  | GetMetric | DeleteMetric => Some "/v1/metrics/" +? arg 0 args
  | GetMetricPoints | AddMetricPoint =>
      Some "/v1/metrics/" +? arg 0 args +? VStr "/points"
  | DeleteMetricPoint =>
      Some "/v1/metrics/" +? arg 0 args +? VStr "/points/" +? arg 1 args
  | GetSubscribers | AddSubscriber => Some "/v1/subscribers"
  | DeleteSubscriber => Some "/v1/subscribers/" +? arg 0 args
  end.

Definition op_data (op : operation) (args : list value) : value :=
  match op with
  | Ping | GetVersion | GetComponents | GetComponent | DeleteComponent
  | GetComponentGroups | GetComponentGroup | DeleteComponentGroup
  | GetIncidents | GetIncident | DeleteIncident | GetIncidentUpdates
  | GetIncidentUpdate | DeleteIncidentUpdate | GetMetrics | GetMetric
  | DeleteMetric | GetMetricPoints | DeleteMetricPoint | GetSubscribers
  | DeleteSubscriber => VUndefined
  | AddComponent | AddComponentGroup | AddIncident | AddMetric
  | AddSubscriber => arg 0 args
  | UpdateComponent | UpdateComponentGroup | UpdateIncident
  | AddIncidentUpdate | AddMetricPoint => arg 1 args
  | UpdateIncidentUpdate => arg 2 args
  end.

Definition op_return (op : operation) (args : list value) : returns :=
  match op with
  | Ping | GetComponent | AddComponent | UpdateComponent | GetComponentGroup
  | AddComponentGroup | UpdateComponentGroup | GetIncident | AddIncident
  | UpdateIncident | GetIncidentUpdate | AddIncidentUpdate
  | UpdateIncidentUpdate | GetMetric | AddMetric | GetMetricPoints
  | AddMetricPoint | GetSubscribers | AddSubscriber => Unwrap
  | GetVersion | GetComponents | GetComponentGroups | GetIncidents
  | GetMetrics => RawIf (arg 0 args)
  | DeleteComponent | DeleteComponentGroup | DeleteIncident
  | DeleteIncidentUpdate | DeleteMetric | DeleteMetricPoint
  | DeleteSubscriber => ConstTrue
  | GetIncidentUpdates => RawIf (arg 1 args)
  end.

(** ** The request of a call and the outcome of its return statement *)

(** The request of the one axios call of the method, if building the path
    lets the method come to it. *)
Definition op_request (this : CachetAPI) (op : operation) (args : list value)
  : option Request :=
  option_map (fun url => mkRequest (op_method op) (baseURL (api this))
                                   (headers (api this)) url (op_data op args))
             (op_url op args).

(** How the underlying HTTP call of an invocation settles, when the
    invocation makes one. *)
Definition http_call (adapter : list Request -> Request -> Settled)
    (this : CachetAPI) (op : operation) (args : list value) (w : World)
  : option Settled :=
  option_map (adapter (sent w)) (op_request this op args).

(** [response.data.data] *)
Definition unwrap_both (response : value) : completion value :=
  match read response f_data with
  | Normal data => read data f_data
  | Throw e => Throw e
  end.

Definition outcome (r : returns) (response : value) : completion value :=
  match r with
  | Unwrap => unwrap_both response
  | RawIf with_meta =>
      if truthy with_meta then read response f_data else unwrap_both response
  | ConstTrue => Normal (VBool true)
  end.

Definition method_name (m : Method) : string :=
  match m with
  | GET => "GET"
  | POST => "POST"
  | PUT => "PUT"
  | DELETE => "DELETE"
  end.

(** The world after one more request and, when [createError] ran to its
    end, one more line on the console. *)
Definition after_request (w : World) (r : Request) : World :=
  mkWorld (sent w ++ [r])%list (console w).

Definition after_failure (w : World) (r : Request) (reason : value) : World :=
  mkWorld (sent w ++ [r])%list (console w ++ [reason])%list.

(** The error a failed call is rewritten to. *)
Definition request_error (type url diagnostic : string) : value :=
  new_Error ("Unable to " ++ type ++ " " ++ url ++ ": " ++ diagnostic).

(** ** The diagnostic text, as the specification words it

    Status code, status text and serialized body of the response the error
    carries, each only if present, that is truthy, which is what the
    [if]s of [createError] test; the string form of the error when it carries
    no response.  A text that cannot be had is the TypeError of its
    conversion. *)

Definition property (v : value) (f : field) : value :=
  match v with
  | VObj props | VErr _ _ props => lookup (field_name f) props
  | _ => VUndefined
  end.

(** Nothing for an absent [v]; else the text of [v] and the separator the
    code puts after it. *)
Definition present_text (v : value) (sep : string) : completion string :=
  if truthy v
  then match convert v with
       | Normal s => Normal (s ++ sep)
       | Throw e => Throw e
       end
  else Normal "".

Definition json_text (v : value) : string :=
  match JSON_stringify v with
  | VStr t => t
  | _ => "undefined"
  end.

Definition response_diagnostic (response : value) : completion string :=
  let status := property response f_status in
  let statusText := property response f_statusText in
  let data := property response f_data in
  match present_text status " " with
  | Throw e => Throw e
  | Normal a =>
      match present_text statusText " | " with
      | Throw e => Throw e
      | Normal b => Normal (a ++ b ++ (if truthy data then json_text data else ""))
      end
  end.

Definition carries_response (error : value) : bool :=
  truthy (property error f_response).

Definition diagnostic (error : value) : completion string :=
  if carries_response error
  then response_diagnostic (property error f_response)
  else string_form error.

(** ** Kinds of method, by name and signature *)

(** The position of the parameter [with_meta], for the methods that
    declare it. *)
Definition with_meta_position (op : operation) : option nat :=
  match op with
  | GetVersion | GetComponents | GetComponentGroups | GetIncidents
  | GetMetrics => Some 0
  | GetIncidentUpdates => Some 1
  | _ => None
  end.

Definition is_delete (op : operation) : bool :=
  match op with
  | DeleteComponent | DeleteComponentGroup | DeleteIncident
  | DeleteIncidentUpdate | DeleteMetric | DeleteMetricPoint
  | DeleteSubscriber => true
  | _ => false
  end.

(** [ping] and the methods that get, create or update one record. *)
Definition single_record (op : operation) : bool :=
  match op with
  | Ping
  | GetComponent | GetComponentGroup | GetIncident | GetIncidentUpdate
  | GetMetric
  | AddComponent | AddComponentGroup | AddIncident | AddIncidentUpdate
  | AddMetric | AddMetricPoint | AddSubscriber
  | UpdateComponent | UpdateComponentGroup | UpdateIncident
  | UpdateIncidentUpdate => true
  | _ => false
  end.

(** ** The endpoint table of the specification

    One row per resource family, one column per shape of operation:
    [GET <collection>], [GET <collection>/<id>], [POST <collection>],
    [PUT <collection>/<id>], [DELETE <collection>/<id>]; the collection of
    a nested family sits under its parent's id. *)

Inductive family : Type :=
| Components | ComponentGroups | Incidents | IncidentUpdates
| Metrics | MetricPoints | Subscribers.

Inductive shape : Type := List | Get | Create | Update | Delete.

Inductive endpoint : Type :=
| PingEndpoint
| VersionEndpoint
| Resource (f : family) (s : shape).

Definition endpoint_of (op : operation) : endpoint :=
  match op with
  | Ping => PingEndpoint
  | GetVersion => VersionEndpoint
  | GetComponents => Resource Components List
  | GetComponent => Resource Components Get
  | AddComponent => Resource Components Create
  | UpdateComponent => Resource Components Update
  | DeleteComponent => Resource Components Delete
  | GetComponentGroups => Resource ComponentGroups List
  | GetComponentGroup => Resource ComponentGroups Get
  | AddComponentGroup => Resource ComponentGroups Create
  | UpdateComponentGroup => Resource ComponentGroups Update
  | DeleteComponentGroup => Resource ComponentGroups Delete
  | GetIncidents => Resource Incidents List
  | GetIncident => Resource Incidents Get
  | AddIncident => Resource Incidents Create
  | UpdateIncident => Resource Incidents Update
  | DeleteIncident => Resource Incidents Delete
  | GetIncidentUpdates => Resource IncidentUpdates List
  | GetIncidentUpdate => Resource IncidentUpdates Get
  | AddIncidentUpdate => Resource IncidentUpdates Create
  | UpdateIncidentUpdate => Resource IncidentUpdates Update
  | DeleteIncidentUpdate => Resource IncidentUpdates Delete
  | GetMetrics => Resource Metrics List
  | GetMetric => Resource Metrics Get
  | AddMetric => Resource Metrics Create
  | DeleteMetric => Resource Metrics Delete
  | GetMetricPoints => Resource MetricPoints List
  | AddMetricPoint => Resource MetricPoints Create
  | DeleteMetricPoint => Resource MetricPoints Delete
  | GetSubscribers => Resource Subscribers List
  | AddSubscriber => Resource Subscribers Create
  | DeleteSubscriber => Resource Subscribers Delete
  end.


Definition nested (f : family) : bool :=
  match f with
  | IncidentUpdates | MetricPoints => true
  | _ => false
  end.




(** ** What the specification calls a request error *)

Definition is_request_error (e : value) : bool :=
  match e with
  | VErr name message _ => (name =? "Error") && prefix "Unable to " message
  | _ => false
  end.

Definition is_type_error (e : value) : bool :=
  match e with
  | VErr name _ _ => name =? "TypeError"
  | _ => false
  end.

(** The return statement reads [response.data.data]. *)
Definition unwraps (r : returns) : bool :=
  match r with
  | Unwrap => true
  | RawIf with_meta => negb (truthy with_meta)
  | ConstTrue => false
  end.

(** A value that is neither [undefined], [null] nor an object with
    properties of its own. *)
Definition primitive_or_array (v : value) : bool :=
  match v with
  | VBool _ | VNum _ | VNaN | VStr _ | VArr _ => true
  | _ => false
  end.

(** The argument that holds the record of a create or an update: it comes
    after the ids. *)
Definition record_argument (e : endpoint) (args : list value) : value :=
  match e with
  | Resource f Create => arg (if nested f then 1 else 0) args
  | Resource f Update => arg (if nested f then 2 else 1) args
  | _ => VUndefined
  end.

(** ** Worlds, clients and networks to run the methods in *)

Definition fresh : World := mkWorld [] [].

Definition demo_options : value :=
  VObj [("url", VStr "https://demo.cachethq.io/api");
        ("apiToken", VStr "9yMHsdioQosnyVK4iCVR")].

Definition demo : CachetAPI :=
  mkCachetAPI demo_options
    (axios_create (VStr "https://demo.cachethq.io/api")
                  [("X-Cachet-Token", VStr "9yMHsdioQosnyVK4iCVR")]).

(** A network on which every request settles the same way. *)
Definition always (s : Settled) : list Request -> Request -> Settled :=
  fun _ _ => s.

Definition http_response (status : safe_integer) (statusText : string)
    (body : value) : value :=
  VObj [("data", body); ("status", VNum status); ("statusText", VStr statusText)].

(** What axios rejects with on a status outside 2xx. *)
Definition axios_error (status : safe_integer) (statusText : string)
    (body : value) : value :=
  VErr "Error" ("Request failed with status code " ++ number_to_string status)
       [("response", http_response status statusText body)].

(** What axios rejects with when no response arrived. *)
Definition network_error : value := VErr "Error" "Network Error" [].

(** The network is down. *)
Definition offline : list Request -> Request -> Settled :=
  always (Rejected network_error).

(** The service answers every request with [200 OK] and [body]. *)
Definition answering (body : value) : list Request -> Request -> Settled :=
  always (Fulfilled (http_response (safe 200) "OK" body)).

(** The raw service envelope of a list, with its pagination. *)
Definition page (records : list value) : value :=
  VObj [("meta", VObj [("pagination", VObj [("current_page", VNum (safe 1))])]);
        ("data", VArr records)].

(** An object that has no text: its own [toString] hides the built-in one
    and cannot be called. *)
Definition stubborn : value := VObj [("toString", VNum (safe 1))].

(** ** Well-typed options and malformed responses *)

(** Options as the constructor documents them: absent, or an object whose
    [url] is a string when it has one. *)
Definition options_typed (options : value) : bool :=
  match options with
  | VUndefined | VNull => true
  | VObj props =>
      match lookup "url" props with
      | VUndefined | VNull | VStr _ => true
      | _ => false
      end
  | _ => false
  end.

Definition missing_or_empty (url : value) : Prop :=
  url = VUndefined \/ url = VNull \/ url = VStr "".

(** A success response whose body is an object without the [data] key of
    the service envelope. *)
Definition lacks_data (response : value) (body : list (string * value)) : Prop :=
  read response f_data = Normal (VObj body) /\ lookup "data" body = VUndefined.

(** The specification's sentence on malformed responses: the call ends in a
    request error. *)
Definition malformed_raises (adapter : list Request -> Request -> Settled) : Prop :=
  forall this op args w response body,
    http_call adapter this op args w = Some (Fulfilled response) ->
    lacks_data response body ->
    exists e, fst (invoke adapter this op args w) = Throw e
              /\ is_request_error e = true.

(** * Properties *)

Lemma append_assoc (a b c : string) : (a ++ b) ++ c = a ++ (b ++ c).
Proof.
  induction a as [|x a IH]; simpl; [reflexivity | now rewrite IH].
Qed.

Lemma append_empty_r (a : string) : a ++ "" = a.
Proof.
  induction a as [|x a IH]; simpl; [reflexivity | now rewrite IH].
Qed.

Lemma truthy_not_nullish (v : value) : truthy v = true -> nullish v = false.
Proof. destruct v; simpl; congruence. Qed.

Lemma read_property (v : value) (f : field) :
  nullish v = false -> read v f = Normal (property v f).
Proof. destruct v; simpl; congruence. Qed.

Lemma op_type_method (op : operation) : op_type op = method_name (op_method op).
Proof. destruct op; reflexivity. Qed.

Lemma to_string_JSON_stringify (v : value) :
  to_string (JSON_stringify v) = Some (json_text v).
Proof. unfold json_text, JSON_stringify. now destruct (json v). Qed.

Section Skeleton.

Variable adapter : list Request -> Request -> Settled.

Lemma invoke_skeleton (this : CachetAPI) (op : operation) (args : list value)
    (w : World) :
  invoke adapter this op args w
  = match op_url op args with
    | Some url =>
        call_then adapter this (op_method op) (op_type op) url
                  (op_data op args) (op_return op args) w
    | None => (Throw cannot_convert, w)
    end.
Proof.
  destruct op; try reflexivity;
    cbv [invoke op_url splice
         getComponent updateComponent deleteComponent
         getComponentGroup updateComponentGroup deleteComponentGroup
         getIncident updateIncident deleteIncident
         getIncidentUpdates getIncidentUpdate addIncidentUpdate
         updateIncidentUpdate deleteIncidentUpdate
         getMetric deleteMetric getMetricPoints addMetricPoint
         deleteMetricPoint deleteSubscriber
         plus str pure convert bind ret];
    destruct (to_string (arg 0 args)) as [a |]; try reflexivity;
    cbn [to_string]; try reflexivity;
    destruct (to_string (arg 1 args)) as [b |]; reflexivity.
Qed.

Lemma run_return_outcome (r : returns) (response : value) (w : World) :
  run_return r response w = (outcome r response, w).
Proof.
  destruct r as [|with_meta|]; simpl; try reflexivity;
    try destruct (truthy with_meta); try reflexivity;
    unfold bind, get, pure, unwrap_both;
    destruct (read response f_data); reflexivity.
Qed.

Lemma createError_run (url type : string) (error : value) (w : World) :
  createError url type error w
  = match diagnostic error with
    | Normal text =>
        (Normal (request_error type url text),
         mkWorld (sent w) (console w ++ [error])%list)
    | Throw e => (Throw e, w)
    end.
Proof.
  unfold createError, diagnostic, carries_response, bind.
  destruct (truthy error) eqn:Ht.
  - unfold get at 1, pure at 1.
    rewrite (read_property _ _ (truthy_not_nullish _ Ht)).
    unfold ret at 1.
    destruct (truthy (property error f_response)) eqn:Hr.
    + unfold get, pure. rewrite (read_property _ _ (truthy_not_nullish _ Ht)).
      rewrite !(read_property _ _ (truthy_not_nullish _ Hr)).
      unfold response_diagnostic, present_text, plus_str, plus, str, bind, pure, ret.
      destruct (truthy (property (property error f_response) f_status));
        [destruct (convert (property (property error f_response) f_status));
         [| reflexivity] |];
        (destruct (truthy (property (property error f_response) f_statusText));
         [destruct (convert (property (property error f_response) f_statusText));
          [| reflexivity] |]);
        (destruct (truthy (property (property error f_response) f_data));
         [unfold convert; rewrite to_string_JSON_stringify |]);
        unfold console_error, request_error; simpl;
        rewrite ?append_assoc, ?append_empty_r; reflexivity.
    + unfold toString, pure. destruct (string_form error); reflexivity.
  - unfold ret at 1.
    assert (property error f_response = VUndefined) as Hp
      by (destruct error; simpl in *; try reflexivity; discriminate).
    rewrite Hp. simpl. unfold toString, pure.
    destruct (string_form error); reflexivity.
Qed.

Lemma call_then_run (this : CachetAPI) (m : Method) (type url : string)
    (data : value) (r : returns) (w : World) :
  call_then adapter this m type url data r w
  = let q := mkRequest m (baseURL (api this)) (headers (api this)) url data in
    match adapter (sent w) q with
    | Fulfilled response => (outcome r response, after_request w q)
    | Rejected reason =>
        match diagnostic reason with
        | Normal text =>
            (Throw (request_error type url text), after_failure w q reason)
        | Throw e => (Throw e, after_request w q)
        end
    end.
Proof.
  unfold call_then, bind, try_catch, axios_request. cbv zeta.
  destruct (adapter (sent w) _) as [response | reason].
  - apply run_return_outcome.
  - rewrite createError_run. destruct (diagnostic reason); reflexivity.
Qed.

(** Every method, on every input: the path, then one request, then either
    the return statement on the response or the rewritten rejection. *)
Lemma invoke_run (this : CachetAPI) (op : operation) (args : list value) (w : World) :
  invoke adapter this op args w
  = match op_request this op args with
    | None => (Throw cannot_convert, w)
    | Some q =>
        match adapter (sent w) q with
        | Fulfilled response =>
            (outcome (op_return op args) response, after_request w q)
        | Rejected reason =>
            match diagnostic reason with
            | Normal text =>
                (Throw (request_error (method_name (req_method q)) (req_url q) text),
                 after_failure w q reason)
            | Throw e => (Throw e, after_request w q)
            end
        end
    end.
Proof.
  rewrite invoke_skeleton. unfold op_request.
  destruct (op_url op args) as [url |]; [| reflexivity].
  rewrite call_then_run, op_type_method. reflexivity.
Qed.

End Skeleton.

Lemma prefix_append (s t : string) : prefix s (s ++ t) = true.
Proof.
  induction s as [|c s IH]; simpl.
  - now destruct t.
  - destruct (ascii_dec c c) as [_ | ne]; [exact IH | now elim ne].
Qed.

Lemma request_error_is_request_error (type url text : string) :
  is_request_error (request_error type url text) = true.
Proof. unfold request_error, new_Error, is_request_error. now rewrite prefix_append. Qed.

Lemma convert_throws_type_error (v e : value) :
  convert v = Throw e -> is_type_error e = true /\ is_request_error e = false.
Proof.
  unfold convert. destruct (to_string v); intros H; [discriminate H |].
  injection H as <-. split; reflexivity.
Qed.

Lemma string_form_throws_type_error (v e : value) :
  string_form v = Throw e -> is_type_error e = true /\ is_request_error e = false.
Proof.
  destruct v as [ | | b | n | | s | elems | props | name message props];
    cbn [string_form];
    first [ apply convert_throws_type_error
          | intros H; injection H as <-; split; reflexivity
          | destruct (has_own "toString" props);
            [ intros H; injection H as <-; split; reflexivity
            | apply convert_throws_type_error ] ].
Qed.


Lemma present_text_throws_type_error (v : value) (sep : string) (e : value) :
  present_text v sep = Throw e ->
  is_type_error e = true /\ is_request_error e = false.
Proof.
  unfold present_text. destruct (truthy v); [| discriminate].
  destruct (convert v) eqn:Hc; [discriminate |].
  intros H. injection H as <-. exact (convert_throws_type_error _ _ Hc).
Qed.

Lemma diagnostic_throws_type_error (error e : value) :
  diagnostic error = Throw e ->
  is_type_error e = true /\ is_request_error e = false.
Proof.
  unfold diagnostic. destruct (carries_response error).
  - unfold response_diagnostic.
    destruct (present_text _ " ") eqn:Ha.
    + destruct (present_text _ " | ") eqn:Hb; [discriminate |].
      intros H. injection H as <-. exact (present_text_throws_type_error _ _ _ Hb).
    + intros H. injection H as <-. exact (present_text_throws_type_error _ _ _ Ha).
  - apply string_form_throws_type_error.
Qed.

Lemma read_throws_type_error (v : value) (f : field) (e : value) :
  read v f = Throw e -> is_type_error e = true /\ is_request_error e = false.
Proof.
  destruct v; simpl; intros H; try discriminate H;
    injection H as <-; split; reflexivity.
Qed.

Lemma outcome_throws_type_error (r : returns) (response e : value) :
  outcome r response = Throw e ->
  is_type_error e = true /\ is_request_error e = false.
Proof.
  destruct r as [ | with_meta | ]; simpl; unfold unwrap_both.
  - destruct (read response f_data) as [d | e'] eqn:Hd.
    + apply read_throws_type_error.
    + intros H. injection H as <-. exact (read_throws_type_error _ _ _ Hd).
  - destruct (truthy with_meta).
    + apply read_throws_type_error.
    + destruct (read response f_data) as [d | e'] eqn:Hd.
      * apply read_throws_type_error.
      * intros H. injection H as <-. exact (read_throws_type_error _ _ _ Hd).
  - discriminate.
Qed.


Lemma constructor_run (options : value) (w : World) :
  constructor options w
  = (if negb (truthy options) || negb (truthy (property options f_url))
     then Throw (new_Error "Error! options.url a is required option!")
     else Normal (mkCachetAPI options
                    (axios_create (property options f_url)
                       [("X-Cachet-Token", property options f_apiToken)])),
     w).
Proof.
  unfold constructor, bind.
  destruct (truthy options) eqn:Ht; simpl.
  - unfold get, pure. rewrite !(read_property _ _ (truthy_not_nullish _ Ht)).
    unfold ret at 1.
    destruct (truthy (property options f_url)); reflexivity.
  - reflexivity.
Qed.

Section Calls.

Variable adapter : list Request -> Request -> Settled.

Lemma invoke_fulfilled (this : CachetAPI) (op : operation) (args : list value)
    (w : World) (response : value) :
  http_call adapter this op args w = Some (Fulfilled response) ->
  exists q : Request,
    op_request this op args = Some q
    /\ invoke adapter this op args w
       = (outcome (op_return op args) response, after_request w q).
Proof.
  unfold http_call. rewrite invoke_run.
  destruct (op_request this op args) as [q |]; [| discriminate].
  simpl. intros H. injection H as ->. now exists q.
Qed.

Lemma invoke_rejected (this : CachetAPI) (op : operation) (args : list value)
    (w : World) (reason : value) :
  http_call adapter this op args w = Some (Rejected reason) ->
  exists q : Request,
    op_request this op args = Some q
    /\ invoke adapter this op args w
       = match diagnostic reason with
         | Normal text =>
             (Throw (request_error (method_name (req_method q)) (req_url q) text),
              after_failure w q reason)
         | Throw e => (Throw e, after_request w q)
         end.
Proof.
  unfold http_call. rewrite invoke_run.
  destruct (op_request this op args) as [q |]; [| discriminate].
  simpl. intros H. injection H as ->. now exists q.
Qed.

Lemma invoke_without_call (this : CachetAPI) (op : operation) (args : list value)
    (w : World) :
  op_request this op args = None ->
  invoke adapter this op args w = (Throw cannot_convert, w).
Proof. intros H. now rewrite invoke_run, H. Qed.

(** The requests of a call: the one of its axios call, or none. *)
Lemma invoke_sends (this : CachetAPI) (op : operation) (args : list value) (w : World) :
  sent (snd (invoke adapter this op args w))
  = (sent w ++ match op_request this op args with
               | Some q => [q]
               | None => []
               end)%list.
Proof.
  rewrite invoke_run.
  destruct (op_request this op args) as [q |]; [| now rewrite app_nil_r].
  destruct (adapter (sent w) q) as [response | reason];
    [| destruct (diagnostic reason)]; reflexivity.
Qed.

Lemma invoke_throws (this : CachetAPI) (op : operation) (args : list value)
    (w : World) (e : value) :
  fst (invoke adapter this op args w) = Throw e ->
  (is_request_error e = true /\ is_type_error e = false
   /\ exists reason text,
        http_call adapter this op args w = Some (Rejected reason)
        /\ diagnostic reason = Normal text)
  \/ (is_type_error e = true /\ is_request_error e = false).
Proof.
  rewrite invoke_run. unfold http_call.
  destruct (op_request this op args) as [q |]; simpl.
  - destruct (adapter (sent w) q) as [response | reason]; simpl.
    + intros H. right. exact (outcome_throws_type_error _ _ _ H).
    + destruct (diagnostic reason) as [text | e'] eqn:Hd; simpl.
      * intros H. injection H as <-. left.
        split; [apply request_error_is_request_error | split; [reflexivity |]].
        now exists reason, text.
      * intros H. injection H as <-. right.
        exact (diagnostic_throws_type_error _ _ Hd).
  - intros H. injection H as <-. right. split; reflexivity.
Qed.

End Calls.

Section Claims.

Variable adapter : list Request -> Request -> Settled.


(** C2. A delete method whose HTTP call is fulfilled returns [true],
    whatever the id and whatever the response: neither its status nor its
    body is looked at. *)
Theorem delete_returns_true (this : CachetAPI) (op : operation)
    (args : list value) (w : World) (response : value) :
  is_delete op = true ->
  http_call adapter this op args w = Some (Fulfilled response) ->
  fst (invoke adapter this op args w) = Normal (VBool true).
Proof.
  intros Hdel Hcall.
  destruct (invoke_fulfilled _ _ _ _ _ _ Hcall) as [r [_ ->]].
  destruct op; try discriminate Hdel; reflexivity.
Qed.

(** C4. [ping] and every method that gets, creates or updates one record
    return [response.data.data]: when the response holds the service
    envelope under [data] and the envelope holds the payload under [data],
    the payload is returned as it is, not unwrapped further; so [ping]
    returns ["Pong!"] when that is the payload. *)
Theorem single_record_unwraps_twice (this : CachetAPI) (op : operation)
    (args : list value) (w : World) (response : value)
    (envelope : list (string * value)) :
  single_record op = true ->
  http_call adapter this op args w = Some (Fulfilled response) ->
  read response f_data = Normal (VObj envelope) ->
  fst (invoke adapter this op args w) = Normal (lookup "data" envelope)
  /\ (op = Ping -> lookup "data" envelope = VStr "Pong!" ->
      fst (invoke adapter this op args w) = Normal (VStr "Pong!")).
Proof.
  intros Hone Hcall Hdata.
  assert (fst (invoke adapter this op args w) = Normal (lookup "data" envelope)) as H.
  { destruct (invoke_fulfilled _ _ _ _ _ _ Hcall) as [r [_ ->]].
    destruct op; try discriminate Hone; simpl; unfold unwrap_both;
      rewrite Hdata; reflexivity. }
  split; [exact H | intros _ Hpong; now rewrite H, Hpong].
Qed.



(** C9. For the methods that declare [with_meta], the raw form is chosen by
    the truthiness of the argument, not by its being [true]: a truthy flag
    (so a nonzero number, a nonempty string, an object) gives
    [response.data], a falsy one (so [false], [undefined], [null], [0], the
    empty string) gives [response.data.data]. *)
Theorem raw_mode_by_truthiness (this : CachetAPI) (op : operation)
    (args : list value) (w : World) (response : value) (k : nat) :
  with_meta_position op = Some k ->
  http_call adapter this op args w = Some (Fulfilled response) ->
  (truthy (arg k args) = true ->
   fst (invoke adapter this op args w) = read response f_data)
  /\ (truthy (arg k args) = false ->
      fst (invoke adapter this op args w) = unwrap_both response)
  /\ (forall n : safe_integer, int_value n <> 0%Z -> truthy (VNum n) = true)
  /\ (forall s : string, s <> "" -> truthy (VStr s) = true)
  /\ (forall props, truthy (VObj props) = true)
  /\ truthy (VBool false) = false
  /\ truthy VUndefined = false
  /\ truthy VNull = false
  /\ truthy (VNum (safe 0)) = false
  /\ truthy (VStr "") = false.
Proof.
  intros Hk Hcall.
  assert (fst (invoke adapter this op args w)
          = if truthy (arg k args) then read response f_data
            else unwrap_both response) as H.
  { destruct (invoke_fulfilled _ _ _ _ _ _ Hcall) as [r [_ ->]].
    destruct op; try discriminate Hk; injection Hk as <-; reflexivity. }
  repeat split; try reflexivity.
  - intros Ht. now rewrite H, Ht.
  - intros Ht. now rewrite H, Ht.
  - intros n Hn. simpl. now destruct (Z.eqb_spec (int_value n) 0).
  - intros s Hs. simpl. now destruct (String.eqb_spec s "").
Qed.


(** C5. On options of the documented type, the constructor throws exactly
    when the options are absent or their [url] is missing or empty.  It never
    touches the network; a client it returns holds an axios instance whose
    base URL is the given [url] and whose headers are the token under
    [X-Cachet-Token], and the request of every call carries both. *)
Theorem constructor_requires_url (options : value) (w : World) :
  options_typed options = true ->
  (fst (constructor options w)
   = Throw (new_Error "Error! options.url a is required option!")
   <-> (nullish options = true \/ missing_or_empty (property options f_url)))
  /\ ((exists e, fst (constructor options w) = Throw e)
      <-> (nullish options = true \/ missing_or_empty (property options f_url)))
  /\ snd (constructor options w) = w
  /\ (forall this : CachetAPI,
        fst (constructor options w) = Normal this ->
        baseURL (api this) = property options f_url
        /\ headers (api this) = [("X-Cachet-Token", property options f_apiToken)]
        /\ forall op args w' r,
             In r (sent (snd (invoke adapter this op args w'))) ->
             In r (sent w')
             \/ (req_baseURL r = property options f_url
                 /\ req_headers r
                    = [("X-Cachet-Token", property options f_apiToken)])).
Proof.
  intros Hty. rewrite constructor_run.
  assert (negb (truthy options) || negb (truthy (property options f_url)) = true
          <-> nullish options = true \/ missing_or_empty (property options f_url))
    as Hiff.
  { unfold missing_or_empty.
    destruct options as [ | | b | n | | s | elems | props | name message props];
      try discriminate Hty; simpl; try tauto.
    simpl in Hty.
    destruct (lookup "url" props) as [ | | b | n | | s | elems | ps | nm msg ps];
      try discriminate Hty; simpl; try tauto.
    destruct (String.eqb_spec s "") as [-> | Hs]; simpl; [tauto |].
    split; [discriminate |].
    intros [H | [H | [H | H]]]; try discriminate H.
    injection H as H. now elim Hs. }
  destruct (negb (truthy options) || negb (truthy (property options f_url)));
    simpl fst; simpl snd.
  - split; [| split; [| split]].
    + split; [intros _; now apply Hiff | reflexivity].
    + split; [intros _; now apply Hiff | intros _; eexists; reflexivity].
    + reflexivity.
    + intros this H. discriminate H.
  - assert (~ (nullish options = true \/ missing_or_empty (property options f_url)))
      as Hno by (intros H; apply Hiff in H; discriminate H).
    split; [| split; [| split]].
    + split; [discriminate | intros H; now elim Hno].
    + split; [intros [e H]; discriminate H | intros H; now elim Hno].
    + reflexivity.
    + intros this H. injection H as <-.
      split; [reflexivity | split; [reflexivity |]].
      intros op args w' r. rewrite invoke_sends.
      intros Hin. apply in_app_or in Hin. destruct Hin as [Hin | Hin];
        [now left | right].
      unfold op_request in Hin. destruct (op_url op args); simpl in Hin;
        [| contradiction].
      destruct Hin as [<- | []]. split; reflexivity.
Qed.

(** C7 (amended). A request error is raised only when the HTTP call is
    rejected: a call that throws one had its request rejected, and once the
    call is fulfilled no method throws a request error, however the response
    is made.  On a success response whose body is an object without the
    [data] key, a method that unwraps returns [undefined], a method in raw
    mode returns the body, and a delete method returns [true]. *)
Theorem fulfilled_never_raises_request_error (this : CachetAPI)
    (op : operation) (args : list value) (w : World) :
  (forall e : value,
     fst (invoke adapter this op args w) = Throw e ->
     is_request_error e = true ->
     exists reason : value,
       http_call adapter this op args w = Some (Rejected reason))
  /\ (forall response : value,
        http_call adapter this op args w = Some (Fulfilled response) ->
        (forall e : value,
           fst (invoke adapter this op args w) = Throw e ->
           is_request_error e = false)
        /\ (forall body : list (string * value),
              lacks_data response body ->
              fst (invoke adapter this op args w)
              = Normal match op_return op args with
                       | Unwrap => VUndefined
                       | RawIf with_meta =>
                           if truthy with_meta then VObj body else VUndefined
                       | ConstTrue => VBool true
                       end)).
Proof.
  split.
  - intros e He Hreq.
    destruct (invoke_throws _ _ _ _ _ _ He) as [[_ [_ [reason [text [H _]]]]] | [_ H]].
    + now exists reason.
    + congruence.
  - intros response Hcall.
    destruct (invoke_fulfilled _ _ _ _ _ _ Hcall) as [r [_ ->]]. simpl fst.
    split.
    + intros e He. now apply outcome_throws_type_error in He.
    + intros body [Hbody Hkey].
      destruct (op_return op args) as [ | with_meta | ]; simpl; unfold unwrap_both;
        rewrite ?Hbody; simpl; try rewrite Hkey; try reflexivity.
      destruct (truthy with_meta); simpl; rewrite ?Hkey; reflexivity.
Qed.

End Claims.

(** * The theorems at work on the demo client *)



Lemma delete_returns_true_witness :
  fst (invoke (always (Fulfilled (http_response (safe 500) "Internal Server Error"
                                    (VStr "oops"))))
              demo DeleteMetricPoint [VNum (safe 4); VNum (safe 9)] fresh)
  = Normal (VBool true).
Proof.
  apply (delete_returns_true
           (always (Fulfilled (http_response (safe 500) "Internal Server Error"
                                 (VStr "oops"))))
           demo DeleteMetricPoint [VNum (safe 4); VNum (safe 9)] fresh
           (http_response (safe 500) "Internal Server Error" (VStr "oops")));
    reflexivity.
Defined.

Lemma single_record_unwraps_twice_witness :
  fst (invoke (answering (VObj [("data", VStr "Pong!")]))
              demo Ping [] fresh)
  = Normal (VStr "Pong!").
Proof.
  apply (single_record_unwraps_twice
           (answering (VObj [("data", VStr "Pong!")]))
           demo Ping [] fresh
           (http_response (safe 200) "OK" (VObj [("data", VStr "Pong!")]))
           [("data", VStr "Pong!")]); reflexivity.
Defined.





Lemma raw_mode_by_truthiness_witness :
  fst (invoke (answering (page [VNum (safe 1)]))
              demo GetIncidentUpdates [VNum (safe 3); VStr "yes"] fresh)
  = Normal (page [VNum (safe 1)])
  /\ fst (invoke (answering (page [VNum (safe 1)]))
                 demo GetIncidentUpdates [VNum (safe 3); VNum (safe 0)] fresh)
     = Normal (VArr [VNum (safe 1)]).
Proof.
  split.
  - destruct (raw_mode_by_truthiness
                (answering (page [VNum (safe 1)]))
                demo GetIncidentUpdates [VNum (safe 3); VStr "yes"] fresh
                (http_response (safe 200) "OK" (page [VNum (safe 1)])) 1
                eq_refl eq_refl)
      as [Hraw _].
    rewrite (Hraw eq_refl). reflexivity.
  - destruct (raw_mode_by_truthiness
                (answering (page [VNum (safe 1)]))
                demo GetIncidentUpdates [VNum (safe 3); VNum (safe 0)] fresh
                (http_response (safe 200) "OK" (page [VNum (safe 1)])) 1
                eq_refl eq_refl)
      as [_ [Hunwrapped _]].
    rewrite (Hunwrapped eq_refl). reflexivity.
Defined.



Lemma constructor_requires_url_witness :
  fst (constructor (VObj [("apiToken", VStr "9yMHsdioQosnyVK4iCVR")]) fresh)
  = Throw (new_Error "Error! options.url a is required option!")
  /\ snd (constructor demo_options fresh) = fresh
  /\ (forall this : CachetAPI,
        fst (constructor demo_options fresh) = Normal this ->
        baseURL (api this) = VStr "https://demo.cachethq.io/api").
Proof.
  split; [| split].
  - destruct (constructor_requires_url offline
                (VObj [("apiToken", VStr "9yMHsdioQosnyVK4iCVR")]) fresh eq_refl)
      as [[_ Hthrows] _].
    apply Hthrows. right. left. reflexivity.
  - destruct (constructor_requires_url offline
                demo_options fresh eq_refl)
      as [_ [_ [Hworld _]]].
    exact Hworld.
  - intros this Hnew.
    destruct (constructor_requires_url offline
                demo_options fresh eq_refl)
      as [_ [_ [_ Hbound]]].
    destruct (Hbound this Hnew) as [Hbase _]. exact Hbase.
Defined.

Lemma fulfilled_never_raises_request_error_witness :
  fst (invoke (answering (VObj [("meta", VObj [])]))
              demo GetComponents [VBool true] fresh)
  = Normal (VObj [("meta", VObj [])])
  /\ (forall e : value,
        fst (invoke (answering VNull)
                    demo Ping [] fresh) = Throw e ->
        is_request_error e = false).
Proof.
  split.
  - destruct (fulfilled_never_raises_request_error
                (answering (VObj [("meta", VObj [])]))
                demo GetComponents [VBool true] fresh)
      as [_ Hfulfilled].
    destruct (Hfulfilled (http_response (safe 200) "OK" (VObj [("meta", VObj [])]))
                eq_refl) as [_ Hbody].
    exact (Hbody [("meta", VObj [])] (conj eq_refl eq_refl)).
  - destruct (fulfilled_never_raises_request_error
                (answering VNull) demo Ping [] fresh)
      as [_ Hfulfilled].
    destruct (Hfulfilled (http_response (safe 200) "OK" VNull) eq_refl)
      as [Hnever _].
    exact Hnever.
Defined.

(** C7, as the specification words it, fails: on a success response whose
    body has no [data] key, [getComponent] and [ping] return [undefined] and
    throw nothing. *)
Lemma malformed_response_returns_undefined :
  lacks_data (http_response (safe 200) "OK" (VObj [("meta", VObj [])]))
             [("meta", VObj [])]
  /\ fst (invoke (answering (VObj [("meta", VObj [])]))
                 demo GetComponent [VNum (safe 1)] fresh)
     = Normal VUndefined
  /\ fst (invoke (answering (VObj [("meta", VObj [])]))
                 demo Ping [] fresh)
     = Normal VUndefined
  /\ ~ malformed_raises
         (answering (VObj [("meta", VObj [])])).
Proof.
  split; [split; reflexivity | split; [reflexivity | split; [reflexivity |]]].
  intros Hraises.
  destruct (Hraises demo GetComponent [VNum (safe 1)] fresh
              (http_response (safe 200) "OK" (VObj [("meta", VObj [])]))
              [("meta", VObj [])] eq_refl (conj eq_refl eq_refl))
    as [e [Hthrown _]].
  discriminate Hthrown.
Qed.

(** C3. [getSubscribers] and [getMetricPoints] declare no [with_meta]
    parameter, although their documentation lists one: called with the flag
    set, on a response that holds the envelope of a page, they return the
    records alone, where [getComponents] returns the envelope with its
    pagination. *)
Theorem subscribers_and_points_ignore_the_flag :
  let records := [VObj [("id", VNum (safe 1))]; VObj [("id", VNum (safe 2))]] in
  let network := answering (page records) in
  fst (invoke network demo GetSubscribers [VBool true] fresh) = Normal (VArr records)
  /\ fst (invoke network demo GetSubscribers [VBool true] fresh) <> Normal (page records)
  /\ fst (invoke network demo GetMetricPoints [VNum (safe 5); VBool true] fresh)
     = Normal (VArr records)
  /\ fst (invoke network demo GetMetricPoints [VNum (safe 5); VBool true] fresh)
     <> Normal (page records)
  /\ fst (invoke network demo GetComponents [VBool true] fresh) = Normal (page records).
Proof.
  cbv zeta. repeat split; try reflexivity; discriminate.
Qed.

(** * Further properties of the client *)

Section Further.

Variable adapter : list Request -> Request -> Settled.

(** X1. A call whose request is rejected with an error that [createError]
    can render writes that error to the console, once, and throws a bare
    [Error] in its place, a message and no property of its own; when the
    diagnostic cannot be had, the TypeError of the conversion is thrown and
    nothing is written.  A call whose request is fulfilled writes
    nothing. *)
Theorem rejection_logged_and_replaced (this : CachetAPI) (op : operation)
    (args : list value) (w : World) :
  (forall (reason : value) (text : string),
     http_call adapter this op args w = Some (Rejected reason) ->
     diagnostic reason = Normal text ->
     console (snd (invoke adapter this op args w)) = (console w ++ [reason])%list
     /\ exists message : string,
          fst (invoke adapter this op args w) = Throw (VErr "Error" message []))
  /\ (forall reason e : value,
        http_call adapter this op args w = Some (Rejected reason) ->
        diagnostic reason = Throw e ->
        console (snd (invoke adapter this op args w)) = console w
        /\ fst (invoke adapter this op args w) = Throw e
        /\ is_type_error e = true)
  /\ (forall response : value,
        http_call adapter this op args w = Some (Fulfilled response) ->
        console (snd (invoke adapter this op args w)) = console w).
Proof.
  split; [| split].
  - intros reason text Hcall Htext.
    destruct (invoke_rejected _ _ _ _ _ _ Hcall) as [r [_ ->]]. rewrite Htext.
    split; [reflexivity |]. eexists. reflexivity.
  - intros reason e Hcall He.
    destruct (invoke_rejected _ _ _ _ _ _ Hcall) as [r [_ ->]]. rewrite He.
    split; [reflexivity | split; [reflexivity |]].
    now apply diagnostic_throws_type_error in He.
  - intros response Hcall.
    now destruct (invoke_fulfilled _ _ _ _ _ _ Hcall) as [r [_ ->]].
Qed.

(** X2. When the request is rejected with [undefined] or [null],
    [createError] fails on [error.toString()] before it logs: the call
    throws a TypeError instead of a request error, the console is left as it
    was, and the one request has been sent all the same. *)
Theorem rejection_without_a_value (this : CachetAPI) (op : operation)
    (args : list value) (w : World) (reason : value) :
  http_call adapter this op args w = Some (Rejected reason) ->
  nullish reason = true ->
  (exists e : value,
     fst (invoke adapter this op args w) = Throw e
     /\ is_type_error e = true
     /\ is_request_error e = false)
  /\ console (snd (invoke adapter this op args w)) = console w
  /\ (exists r : Request,
        op_request this op args = Some r
        /\ sent (snd (invoke adapter this op args w)) = (sent w ++ [r])%list)
  /\ (forall url type : string,
        snd (createError url type reason w) = w
        /\ exists e : value,
             fst (createError url type reason w) = Throw e
             /\ is_type_error e = true).
Proof.
  intros Hcall Hnull.
  assert (diagnostic reason = Throw (cannot_read reason "toString")) as Hd
    by (destruct reason; try discriminate Hnull; reflexivity).
  destruct (invoke_rejected _ _ _ _ _ _ Hcall) as [r [Hr Hrun]].
  rewrite Hrun, Hd. split; [| split; [| split]].
  - eexists. repeat split.
  - reflexivity.
  - exists r. now split.
  - intros url type. rewrite createError_run, Hd.
    split; [reflexivity |]. eexists. split; reflexivity.
Qed.

(** X3. A call throws a request error exactly when its request is rejected
    with an error that [createError] can render; whatever else a call throws
    is a TypeError: from an id or an error that has no text, or from reading
    [data] off a missing response or body. *)
Theorem request_error_iff_rejected (this : CachetAPI) (op : operation)
    (args : list value) (w : World) :
  ((exists e : value,
      fst (invoke adapter this op args w) = Throw e /\ is_request_error e = true)
   <-> (exists (reason : value) (text : string),
          http_call adapter this op args w = Some (Rejected reason)
          /\ diagnostic reason = Normal text))
  /\ (forall e : value,
        fst (invoke adapter this op args w) = Throw e ->
        is_request_error e = false ->
        is_type_error e = true).
Proof.
  split; [split |].
  - intros [e [He Hreq]].
    destruct (invoke_throws _ _ _ _ _ _ He) as [[_ [_ H]] | [_ H]];
      [exact H | congruence].
  - intros [reason [text [Hcall Htext]]].
    destruct (invoke_rejected _ _ _ _ _ _ Hcall) as [r [_ ->]]. rewrite Htext.
    eexists. split; [reflexivity | apply request_error_is_request_error].
  - intros e He Hno.
    destruct (invoke_throws _ _ _ _ _ _ He) as [[H _] | [H _]];
      [congruence | exact H].
Qed.

(** X4. The record handed to a create or an update method is the data of
    the request, unchanged, wherever it stands among the arguments; the
    methods that list, get or delete, [ping] and [getVersion] send no
    data. *)
Theorem record_is_the_request_data (this : CachetAPI) (op : operation)
    (args : list value) (w : World) (r : Request) :
  In r (sent (snd (invoke adapter this op args w))) ->
  In r (sent w)
  \/ (req_data r = record_argument (endpoint_of op) args
      /\ (req_method r = GET \/ req_method r = DELETE -> req_data r = VUndefined)).
Proof.
  rewrite invoke_sends. intros Hin. apply in_app_or in Hin.
  destruct Hin as [Hin | Hin]; [now left | right].
  unfold op_request in Hin. destruct (op_url op args); simpl in Hin;
    [| contradiction].
  destruct Hin as [<- | []]. simpl. split.
  - destruct op; reflexivity.
  - destruct op; simpl; intros [H | H]; try discriminate H; reflexivity.
Qed.

(** X5. Whatever value the constructor is given, it throws exactly when the
    options are falsy or their [url] is falsy.  Options that are not an
    object are refused; a truthy [url] is taken as it is, string or not; the
    token is optional, and the client keeps the options it was given. *)
Theorem constructor_by_truthiness (options : value) (w : World) :
  ((exists e : value, fst (constructor options w) = Throw e)
   <-> (truthy options = false \/ truthy (property options f_url) = false))
  /\ (primitive_or_array options = true ->
      fst (constructor options w)
      = Throw (new_Error "Error! options.url a is required option!"))
  /\ (truthy (property options f_url) = true ->
      fst (constructor options w)
      = Normal (mkCachetAPI options
                  (mkAxios (property options f_url)
                     [("X-Cachet-Token", property options f_apiToken)])))
  /\ (forall props : list (string * value),
        options = VObj props ->
        truthy (lookup "url" props) = true ->
        exists this : CachetAPI,
          fst (constructor options w) = Normal this
          /\ baseURL (api this) = lookup "url" props
          /\ headers (api this) = [("X-Cachet-Token", lookup "apiToken" props)]).
Proof.
  rewrite constructor_run. simpl fst.
  assert (truthy (property options f_url) = true -> truthy options = true) as Hobj
    by (destruct options; simpl; congruence).
  split; [| split; [| split]].
  - destruct (truthy options) eqn:Ho; destruct (truthy (property options f_url)) eqn:Hu;
      simpl; split;
      try (intros _; eexists; reflexivity);
      try (intros _; now left); try (intros _; now right);
      try (intros [e H]; discriminate H);
      intros [H | H]; discriminate H.
  - intros Hprim.
    assert (property options f_url = VUndefined) as ->
      by (destruct options; simpl in *; congruence).
    simpl. now rewrite orb_true_r.
  - intros Hu. now rewrite (Hobj Hu), Hu.
  - intros props -> Hu. simpl property. simpl truthy at 1. rewrite Hu. simpl.
    eexists. repeat split.
Qed.

(** X6. The path of every request a call sends starts with [/v1/],
    whatever the method and whatever its arguments. *)
Theorem every_path_is_under_v1 (this : CachetAPI) (op : operation)
    (args : list value) (w : World) (r : Request) :
  In r (sent (snd (invoke adapter this op args w))) ->
  In r (sent w) \/ prefix "/v1/" (req_url r) = true.
Proof.
  rewrite invoke_sends. intros Hin. apply in_app_or in Hin.
  destruct Hin as [Hin | Hin]; [now left | right].
  unfold op_request in Hin. destruct (op_url op args) as [url |] eqn:Hurl;
    simpl in Hin; [| contradiction].
  destruct Hin as [<- | []]. simpl. revert Hurl.
  destruct op; cbv [op_url splice];
    try (intros H; injection H as <-; reflexivity);
    destruct (to_string (arg 0 args)) as [a |]; try discriminate;
    cbn [to_string];
    try (intros H; injection H as <-; rewrite ?append_assoc;
         apply (prefix_append "/v1/"));
    destruct (to_string (arg 1 args)) as [b |]; try discriminate;
    intros H; injection H as <-; rewrite ?append_assoc;
    apply (prefix_append "/v1/").
Qed.

Lemma invoke_alike (this : CachetAPI) (op op' : operation)
    (args args' : list value) (w : World) :
  op_method op = op_method op' ->
  op_url op args = op_url op' args' ->
  op_data op args = op_data op' args' ->
  op_return op args = op_return op' args' ->
  invoke adapter this op args w = invoke adapter this op' args' w.
Proof.
  intros Hm Hu Hd Hr. rewrite !invoke_run. unfold op_request.
  now rewrite Hm, Hu, Hd, Hr.
Qed.

(** X7. The [with_meta] flag never reaches the network: two calls of a
    method that differ in the flag alone send the same request, and so get
    the same answer; the flag only decides how much of it is returned. *)
Theorem flag_is_not_sent (this : CachetAPI) (op : operation) (k : nat)
    (args args' : list value) (w : World) :
  with_meta_position op = Some k ->
  (forall i : nat, i <> k -> arg i args = arg i args') ->
  snd (invoke adapter this op args w) = snd (invoke adapter this op args' w)
  /\ op_request this op args = op_request this op args'.
Proof.
  intros Hk Hsame.
  assert (op_request this op args = op_request this op args') as Hreq.
  { unfold op_request.
    destruct op; try discriminate Hk; injection Hk as <-; try reflexivity.
    unfold op_url, op_data. now rewrite (Hsame 0) by discriminate. }
  split; [| exact Hreq].
  rewrite !invoke_run. rewrite <- Hreq.
  destruct (op_request this op args) as [q |]; [| reflexivity].
  destruct (adapter (sent w) q) as [response | reason];
    [| destruct (diagnostic reason)]; reflexivity.
Qed.

(** X8. An id is spliced into the path as it is, slashes included, so that
    a string id can reach into another family: with the id [groups/s] the
    component methods are the component-group methods at [s], an incident id
    [i/updates/u] makes [getIncident] the same call as [getIncidentUpdate]
    at [i] and [u], and a metric id [m/points/p] makes [deleteMetric] delete
    the point [p] of [m]. *)
Theorem ids_are_spliced_as_they_are (this : CachetAPI) (w : World) :
  (forall s : string,
     invoke adapter this GetComponent [VStr ("groups/" ++ s)] w
     = invoke adapter this GetComponentGroup [VStr s] w)
  /\ (forall (s : string) (record : value),
        invoke adapter this UpdateComponent [VStr ("groups/" ++ s); record] w
        = invoke adapter this UpdateComponentGroup [VStr s; record] w)
  /\ (forall s : string,
        invoke adapter this DeleteComponent [VStr ("groups/" ++ s)] w
        = invoke adapter this DeleteComponentGroup [VStr s] w)
  /\ (forall i u : string,
        invoke adapter this GetIncident [VStr (i ++ "/updates/" ++ u)] w
        = invoke adapter this GetIncidentUpdate [VStr i; VStr u] w)
  /\ (forall m p : string,
        invoke adapter this DeleteMetric [VStr (m ++ "/points/" ++ p)] w
        = invoke adapter this DeleteMetricPoint [VStr m; VStr p] w).
Proof.
  repeat split; intros; apply invoke_alike; try reflexivity;
    cbv [op_url splice arg nth to_string]; now rewrite ?append_assoc.
Qed.

(** X9. A method that unwraps does not check what it unwraps.  When the
    body of a fulfilled response is [null] or [undefined], reading [data]
    off it throws a TypeError that no [catch] rewrites: it is no request
    error and nothing is logged.  When the body is a string (the empty body
    of a 204, an HTML page), a number, a boolean or an array, the method
    returns [undefined] and throws nothing. *)
Theorem body_that_is_no_envelope (this : CachetAPI) (op : operation)
    (args : list value) (w : World) (response body : value) :
  http_call adapter this op args w = Some (Fulfilled response) ->
  read response f_data = Normal body ->
  unwraps (op_return op args) = true ->
  (nullish body = true ->
   (exists e : value,
      fst (invoke adapter this op args w) = Throw e
      /\ is_type_error e = true
      /\ is_request_error e = false)
   /\ console (snd (invoke adapter this op args w)) = console w)
  /\ (primitive_or_array body = true ->
      fst (invoke adapter this op args w) = Normal VUndefined).
Proof.
  intros Hcall Hbody Hun.
  destruct (invoke_fulfilled _ _ _ _ _ _ Hcall) as [r [_ ->]].
  simpl fst. simpl snd.
  assert (outcome (op_return op args) response = read body f_data) as ->.
  { destruct (op_return op args) as [ | with_meta | ]; simpl in *;
      try discriminate Hun; unfold unwrap_both; rewrite ?Hbody; try reflexivity.
    destruct (truthy with_meta); [discriminate Hun | reflexivity]. }
  split.
  - intros Hnull. split; [| reflexivity].
    destruct body; try discriminate Hnull; eexists; repeat split.
  - intros Hprim. destruct body; try discriminate Hprim; reflexivity.
Qed.

(** X10. The two forms of a result agree: when a call with the flag set
    returns the envelope, the same call without the flag, on the same
    answer, returns what reading [data] off that envelope gives, its [data]
    property or the TypeError of reading it off [null] or [undefined]. *)
Theorem unwrapped_is_data_of_raw (this : CachetAPI) (op : operation) (k : nat)
    (args args' : list value) (w : World) (response envelope : value) :
  with_meta_position op = Some k ->
  (forall i : nat, i <> k -> arg i args = arg i args') ->
  truthy (arg k args) = true ->
  truthy (arg k args') = false ->
  http_call adapter this op args w = Some (Fulfilled response) ->
  fst (invoke adapter this op args w) = Normal envelope ->
  fst (invoke adapter this op args' w) = read envelope f_data.
Proof.
  intros Hk Hsame Hraw Hplain Hcall.
  assert (op_request this op args' = op_request this op args) as Hreq.
  { unfold op_request.
    destruct op; try discriminate Hk; injection Hk as <-; try reflexivity.
    unfold op_url, op_data. now rewrite (Hsame 0) by discriminate. }
  assert (http_call adapter this op args' w = Some (Fulfilled response)) as Hcall'
    by (unfold http_call in *; now rewrite Hreq).
  destruct (invoke_fulfilled _ _ _ _ _ _ Hcall) as [r [_ ->]].
  destruct (invoke_fulfilled _ _ _ _ _ _ Hcall') as [r' [_ ->]]. simpl fst.
  assert (op_return op args = RawIf (arg k args)
          /\ op_return op args' = RawIf (arg k args')) as [-> ->]
    by (destruct op; try discriminate Hk; injection Hk as <-; split; reflexivity).
  simpl. rewrite Hraw, Hplain. unfold unwrap_both. now intros ->.
Qed.

(** X11. A method builds its path before the [try]: an id that has no
    text, an object whose own [toString] hides the built-in one, makes it
    throw a TypeError with nothing sent and nothing logged.  Every other id
    has a text, [undefined] and [null] included, and the request is sent. *)
Theorem id_without_text (this : CachetAPI) (op : operation)
    (args : list value) (w : World) :
  (op_request this op args = None ->
   snd (invoke adapter this op args w) = w
   /\ exists e : value,
        fst (invoke adapter this op args w) = Throw e
        /\ is_type_error e = true
        /\ is_request_error e = false)
  /\ ((forall i : nat, to_string (arg i args) <> None) ->
      exists r : Request,
        op_request this op args = Some r
        /\ sent (snd (invoke adapter this op args w)) = (sent w ++ [r])%list)
  /\ to_string VUndefined = Some "undefined"
  /\ to_string VNull = Some "null"
  /\ (forall props : list (string * value),
        to_string (VObj props) = None <-> has_own "toString" props = true).
Proof.
  split; [| split; [| split; [| split]]]; try reflexivity.
  - intros Hnone. rewrite invoke_without_call by exact Hnone.
    split; [reflexivity |]. eexists. repeat split.
  - intros Hall.
    assert (exists url, op_url op args = Some url) as [url Hurl].
    { pose proof (Hall 0) as H0. pose proof (Hall 1) as H1.
      destruct op; cbv [op_url splice]; try (eexists; reflexivity);
        destruct (to_string (arg 0 args)) as [a |]; try (now elim H0);
        cbn [to_string]; try (eexists; reflexivity);
        destruct (to_string (arg 1 args)) as [b |]; try (now elim H1);
        eexists; reflexivity. }
    rewrite invoke_sends. unfold op_request. rewrite Hurl. simpl.
    eexists. split; reflexivity.
  - intros props. simpl. destruct (has_own "toString" props); split;
      congruence.
Qed.

End Further.

(** * The further properties at work on the demo client *)

Lemma rejection_logged_and_replaced_witness :
  console (snd (invoke (always (Rejected (axios_error (safe 404) "Not Found" VUndefined)))
                       demo GetIncident [VNum (safe 12)] fresh))
  = [axios_error (safe 404) "Not Found" VUndefined]
  /\ console (snd (invoke (always (Rejected stubborn)) demo GetIncident
                          [VNum (safe 12)] fresh)) = []
  /\ console (snd (invoke (answering (page [])) demo GetIncidents [] fresh)) = [].
Proof.
  destruct (rejection_logged_and_replaced
              (always (Rejected (axios_error (safe 404) "Not Found" VUndefined)))
              demo GetIncident [VNum (safe 12)] fresh) as [Hlogged _].
  destruct (Hlogged (axios_error (safe 404) "Not Found" VUndefined)
              "404 Not Found | " eq_refl eq_refl) as [Hconsole _].
  destruct (rejection_logged_and_replaced (always (Rejected stubborn))
              demo GetIncident [VNum (safe 12)] fresh) as [_ [Hsilent _]].
  destruct (Hsilent stubborn (not_a_function "error.toString") eq_refl eq_refl)
    as [Hnone _].
  destruct (rejection_logged_and_replaced (answering (page []))
              demo GetIncidents [] fresh) as [_ [_ Hquiet]].
  split; [exact Hconsole | split; [exact Hnone | exact (Hquiet _ eq_refl)]].
Defined.

Lemma rejection_without_a_value_witness :
  console (snd (invoke (always (Rejected VUndefined)) demo AddMetric
                       [VObj [("name", VStr "add metric")]] fresh)) = []
  /\ exists e : value,
       fst (invoke (always (Rejected VUndefined)) demo AddMetric
                   [VObj [("name", VStr "add metric")]] fresh) = Throw e
       /\ is_type_error e = true
       /\ is_request_error e = false.
Proof.
  destruct (rejection_without_a_value (always (Rejected VUndefined)) demo AddMetric
              [VObj [("name", VStr "add metric")]] fresh VUndefined eq_refl eq_refl)
    as [Hthrown [Hconsole _]].
  split; [exact Hconsole | exact Hthrown].
Defined.

Lemma request_error_iff_rejected_witness :
  (exists e : value,
     fst (invoke offline demo GetMetrics [] fresh) = Throw e
     /\ is_request_error e = true)
  /\ ~ (exists e : value,
          fst (invoke (answering VNull) demo GetMetrics [] fresh) = Throw e
          /\ is_request_error e = true).
Proof.
  split.
  - destruct (request_error_iff_rejected offline demo GetMetrics [] fresh)
      as [[_ Hraised] _].
    apply Hraised. exists network_error, "Error: Network Error".
    split; reflexivity.
  - destruct (request_error_iff_rejected (answering VNull) demo GetMetrics [] fresh)
      as [[Honly _] _].
    intros Hthrown. destruct (Honly Hthrown) as [reason [text [Hrej _]]].
    discriminate Hrej.
Defined.

Lemma record_is_the_request_data_witness :
  req_data (mkRequest PUT (baseURL (api demo)) (headers (api demo))
                      "/v1/incidents/3/updates/9" (VObj [("status", VNum (safe 3))]))
  = VObj [("status", VNum (safe 3))].
Proof.
  destruct (record_is_the_request_data offline demo UpdateIncidentUpdate
              [VNum (safe 3); VNum (safe 9); VObj [("status", VNum (safe 3))]] fresh
              (mkRequest PUT (baseURL (api demo)) (headers (api demo))
                         "/v1/incidents/3/updates/9"
                         (VObj [("status", VNum (safe 3))])))
    as [Hold | [Hdata _]].
  - left. reflexivity.
  - destruct Hold.
  - exact Hdata.
Defined.

Lemma constructor_by_truthiness_witness :
  fst (constructor (VStr "https://demo.cachethq.io/api") fresh)
  = Throw (new_Error "Error! options.url a is required option!")
  /\ fst (constructor (VObj [("url", VNum (safe 8080))]) fresh)
     = Normal (mkCachetAPI (VObj [("url", VNum (safe 8080))])
                 (mkAxios (VNum (safe 8080)) [("X-Cachet-Token", VUndefined)])).
Proof.
  split.
  - destruct (constructor_by_truthiness (VStr "https://demo.cachethq.io/api") fresh)
      as [_ [Hrefused _]].
    exact (Hrefused eq_refl).
  - destruct (constructor_by_truthiness (VObj [("url", VNum (safe 8080))]) fresh)
      as [_ [_ [Htaken _]]].
    exact (Htaken eq_refl).
Defined.

Lemma every_path_is_under_v1_witness :
  prefix "/v1/" "/v1/metrics/4/points/undefined" = true.
Proof.
  destruct (every_path_is_under_v1 offline demo DeleteMetricPoint [VNum (safe 4)] fresh
              (mkRequest DELETE (baseURL (api demo)) (headers (api demo))
                         "/v1/metrics/4/points/undefined" VUndefined))
    as [Hold | Hpath].
  - left. reflexivity.
  - destruct Hold.
  - exact Hpath.
Defined.

Lemma flag_is_not_sent_witness :
  op_request demo GetIncidentUpdates [VNum (safe 3); VBool true]
  = op_request demo GetIncidentUpdates [VNum (safe 3)].
Proof.
  assert (forall i : nat,
            i <> 1 -> arg i [VNum (safe 3); VBool true] = arg i [VNum (safe 3)])
    as Hrest.
  { intros [ | [ | [ | i]]] Hi; try reflexivity. now elim Hi. }
  destruct (flag_is_not_sent offline demo GetIncidentUpdates 1
              [VNum (safe 3); VBool true] [VNum (safe 3)] fresh eq_refl Hrest)
    as [_ Hsame].
  exact Hsame.
Defined.

Lemma body_that_is_no_envelope_witness :
  fst (invoke (answering (VStr "")) demo GetSubscribers [] fresh) = Normal VUndefined
  /\ exists e : value,
       fst (invoke (answering VNull) demo Ping [] fresh) = Throw e
       /\ is_type_error e = true
       /\ is_request_error e = false.
Proof.
  split.
  - destruct (body_that_is_no_envelope (answering (VStr "")) demo GetSubscribers []
                fresh (http_response (safe 200) "OK" (VStr "")) (VStr "")
                eq_refl eq_refl eq_refl) as [_ Hnothing].
    exact (Hnothing eq_refl).
  - destruct (body_that_is_no_envelope (answering VNull) demo Ping []
                fresh (http_response (safe 200) "OK" VNull) VNull
                eq_refl eq_refl eq_refl) as [Hthrows _].
    destruct (Hthrows eq_refl) as [Hthrown _]. exact Hthrown.
Defined.

Lemma unwrapped_is_data_of_raw_witness :
  fst (invoke (answering (page [VNum (safe 1)])) demo GetMetrics [VBool true] fresh)
  = Normal (page [VNum (safe 1)])
  /\ fst (invoke (answering (page [VNum (safe 1)])) demo GetMetrics [] fresh)
     = Normal (VArr [VNum (safe 1)]).
Proof.
  assert (forall i : nat, i <> 0 -> arg i [VBool true] = arg i []) as Hrest.
  { intros [ | [ | i]] Hi; try reflexivity. now elim Hi. }
  split; [reflexivity |].
  exact (unwrapped_is_data_of_raw (answering (page [VNum (safe 1)])) demo GetMetrics 0
           [VBool true] [] fresh (http_response (safe 200) "OK" (page [VNum (safe 1)]))
           (page [VNum (safe 1)]) eq_refl Hrest eq_refl eq_refl eq_refl eq_refl).
Defined.

Lemma id_without_text_witness :
  snd (invoke (answering (VObj [("data", VBool true)])) demo GetComponent
              [stubborn] fresh) = fresh
  /\ exists r : Request,
       op_request demo GetComponent [] = Some r
       /\ sent (snd (invoke (answering (VObj [("data", VBool true)])) demo
                            GetComponent [] fresh)) = [r].
Proof.
  split.
  - destruct (id_without_text (answering (VObj [("data", VBool true)])) demo
                GetComponent [stubborn] fresh) as [Hnothing _].
    destruct (Hnothing eq_refl) as [Hworld _]. exact Hworld.
  - destruct (id_without_text (answering (VObj [("data", VBool true)])) demo
                GetComponent [] fresh) as [_ [Hsent _]].
    apply Hsent. intros [ | i]; discriminate.
Defined.
